(** * CORD-19 data explorer: the preparation and aggregation pipeline

    A shallow embedding of [framework.py].  The file holds two scripts: the
    interactive Streamlit application (its lines 1-90) and the console
    report (lines 94-188).  Both read [metadata.csv], clean it, derive two
    columns and aggregate.

    Modelling conventions.
    - A data frame is the list of its rows, in row order.  A column is the
      list obtained by projecting a field ([map]).  Only the four columns
      the scripts touch are kept.
    - A cell of a text column is [option string]: [None] is pandas' NaN.
    - Strings are sequences of one-byte characters.
    - Library calls (pandas, Streamlit, wordcloud) are modelled by what they
      compute on these data; each definition names the call it stands for. *)

From Stdlib Require Import String Ascii List ZArith Bool Arith Lia Sorted Permutation.
Import ListNotations.

Local Open Scope string_scope.
Local Open Scope list_scope.
Local Open Scope nat_scope.

(** ** Python strings *)

Module PyStr.

(** [str.isspace] on one character of the ASCII range: space, the
    controls TAB, LF, VT, FF, CR and the separators FS, GS, RS, US. *)
Definition isspace (c : ascii) : bool :=
  let n := nat_of_ascii c in
  ((n =? 32) || ((9 <=? n) && (n <=? 13)) || ((28 <=? n) && (n <=? 31)))%nat.

Definition snoc (tok : string) (c : ascii) : string :=
  tok ++ String c EmptyString.

Definition is_empty (s : string) : bool :=
  match s with EmptyString => true | String _ _ => false end.

(** The scanning loop of [str.split()] without arguments: [tok] is the
    token being read, empty while the scanner is skipping separators. *)
Fixpoint split_from (tok : string) (s : string) : list string :=
  match s with
  | EmptyString => if is_empty tok then [] else [tok]
  | String c rest =>
      if isspace c
      then (if is_empty tok then split_from EmptyString rest
            else tok :: split_from EmptyString rest)
      else split_from (snoc tok c) rest
  end.

(** [s.split()] *)
Definition split (s : string) : list string := split_from EmptyString s.

(** [sep.join(parts)] *)
Definition join (sep : string) (parts : list string) : string :=
  String.concat sep parts.

(** Truth value of a string in an [if]: non-empty. *)
Definition truthy (s : string) : bool := negb (is_empty s).





End PyStr.

(** ** Cells, rows and frames *)

(** A cell of an [object] column as [read_csv] produces it. *)
Definition cell := option string.

Definition isna {A} (c : option A) : bool :=
  match c with None => true | Some _ => false end.

Definition notna {A} (c : option A) : bool := negb (isna c).

(** [str(x)] of a cell: NaN prints as [nan]. *)
Definition py_str (c : cell) : string :=
  match c with Some s => s | None => "nan" end.

(** A row of the frame [pd.read_csv('metadata.csv')] returns. *)
Record raw_row := mk_raw {
  raw_title : cell;
  raw_abstract : cell;
  raw_journal : cell;
  raw_publish_time : cell
}.

(** A [datetime64] value; [None] of [option Timestamp] is NaT. *)
Record Timestamp := mk_ts { ts_year : Z; ts_month : Z; ts_day : Z }.

(** A row after preparation: [publish_time] is parsed and the two derived
    columns are present.  [publication_year] is [None] for NaN. *)
Record row := mk_row {
  title : cell;
  abstract : cell;
  journal : cell;
  publish_time : option Timestamp;
  publication_year : option Z;
  abstract_word_count : nat
}.

Definition raw_frame := list raw_row.
Definition frame := list row.

(** ** pandas operations the scripts use *)

Module Pd.

(** [df.dropna(subset=['title', 'abstract'])]: keep the rows in which
    neither cell is NaN. *)
Definition dropna_title_abstract (df : raw_frame) : raw_frame :=
  filter (fun r => notna (raw_title r) && notna (raw_abstract r)) df.

(** [Series.fillna(value)] on one cell. *)
Definition fillna_cell (value : string) (c : cell) : cell :=
  match c with None => Some value | Some s => Some s end.

(** [df['journal'].fillna(value, inplace=True)]: the selected column
    shares its data with the frame (pandas without copy-on-write), so the
    frame's column is filled. *)
Definition fillna_journal (value : string) (df : raw_frame) : raw_frame :=
  map (fun r => mk_raw (raw_title r) (raw_abstract r)
                       (fillna_cell value (raw_journal r))
                       (raw_publish_time r)) df.

(** [Series.dt.year] on one value: NaT gives NaN. *)
Definition dt_year (t : option Timestamp) : option Z :=
  option_map ts_year t.

(** Comparison of a numeric column with a scalar; NaN compares false. *)
Definition ge_scalar (col : list (option Z)) (k : Z) : list bool :=
  map (fun v => match v with Some y => (k <=? y)%Z | None => false end) col.

Definition le_scalar (col : list (option Z)) (k : Z) : list bool :=
  map (fun v => match v with Some y => (y <=? k)%Z | None => false end) col.

(** [a & b] on two boolean columns. *)
Definition mask_and (a b : list bool) : list bool :=
  map (fun p => fst p && snd p) (combine a b).

(** [df[mask]]: the rows at which the mask is true, in order. *)
Definition boolean_index {A} (df : list A) (mask : list bool) : list A :=
  map fst (filter snd (combine df mask)).

(** [Series.min()] and [Series.max()]: NaN cells are skipped; the result is
    NaN when nothing is left. *)
Definition opt_min (acc : option Z) (v : option Z) : option Z :=
  match acc, v with
  | None, _ => v
  | Some a, None => Some a
  | Some a, Some b => Some (Z.min a b)
  end.

Definition opt_max (acc : option Z) (v : option Z) : option Z :=
  match acc, v with
  | None, _ => v
  | Some a, None => Some a
  | Some a, Some b => Some (Z.max a b)
  end.

Definition series_min (col : list (option Z)) : option Z :=
  fold_left opt_min col None.

Definition series_max (col : list (option Z)) : option Z :=
  fold_left opt_max col None.

Section ValueCounts.

Context {K : Type}.
Variable eqb : K -> K -> bool.

(** numpy's [argsort] of the counts as [sort_values] calls it with its
    default [kind]: the entries come out by ascending count.  Which of two
    entries with equal counts comes first is decided inside numpy's
    sorting routine, which the scripts do not choose. *)
Variable argsort : list (K * nat) -> list (K * nat).

(** One step of the hash-table pass of [value_counts]: a key already seen
    has its counter incremented in place, a new key is appended. *)
Fixpoint bump (k : K) (acc : list (K * nat)) : list (K * nat) :=
  match acc with
  | [] => [(k, 1)]
  | (k', n) :: rest =>
      if eqb k k' then (k', S n) :: rest else (k', n) :: bump k rest
  end.

(** The unsorted counts: keys in order of first appearance, NaN cells
    dropped ([dropna=True] is the default). *)
Definition count_keys (col : list (option K)) : list (K * nat) :=
  fold_left (fun acc v => match v with
                          | Some k => bump k acc
                          | None => acc
                          end) col [].

(** [Series.sort_values(ascending=False)]: pandas reverses the values,
    sorts them ascending and reverses the result. *)
Definition sort_values_desc (l : list (K * nat)) : list (K * nat) :=
  rev (argsort (rev l)).

(** [Series.value_counts()] *)
Definition value_counts (col : list (option K)) : list (K * nat) :=
  sort_values_desc (count_keys col).

(** [Series.head(n)] *)
Definition head {A} (n : nat) (l : list A) : list A := firstn n l.

End ValueCounts.

(** Insertion sort by count.  [goes_first a b] tells whether an entry of
    count [a] is put in front of a sorted entry of count [b]. *)
Section Insertion.

Context {K : Type}.
Variable goes_first : nat -> nat -> bool.

Fixpoint insert_by (x : K * nat) (l : list (K * nat)) : list (K * nat) :=
  match l with
  | [] => [x]
  | y :: rest =>
      if goes_first (snd x) (snd y) then x :: y :: rest
      else y :: insert_by x rest
  end.

Fixpoint insertion_sort (l : list (K * nat)) : list (K * nat) :=
  match l with
  | [] => []
  | x :: rest => insert_by x (insertion_sort rest)
  end.

End Insertion.

(** A stable sorting routine (numpy's [kind='stable'], and what its
    default does on short arrays): an entry is put in front of the sorted
    entries that are not smaller, so equal counts keep their order. *)
Definition stable_argsort (K : Type) : list (K * nat) -> list (K * nat) :=
  insertion_sort Nat.leb.


(** [Series.sort_index()] on a series indexed by year. *)
Fixpoint insert_key (x : Z * nat) (l : list (Z * nat)) : list (Z * nat) :=
  match l with
  | [] => [x]
  | y :: rest =>
      if (fst x <=? fst y)%Z then x :: y :: rest else y :: insert_key x rest
  end.

Fixpoint sort_index (l : list (Z * nat)) : list (Z * nat) :=
  match l with
  | [] => []
  | x :: rest => insert_key x (sort_index rest)
  end.

End Pd.

(** ** Dates in ISO format *)

Module Iso8601.

Definition digit (c : ascii) : option Z :=
  let n := Z.of_nat (nat_of_ascii c) in
  if ((48 <=? n) && (n <=? 57))%Z then Some (n - 48)%Z else None.

Definition number2 (a b : ascii) : option Z :=
  match digit a, digit b with
  | Some x, Some y => Some (10 * x + y)%Z
  | _, _ => None
  end.

Definition number4 (a b c d : ascii) : option Z :=
  match number2 a b, number2 c d with
  | Some x, Some y => Some (100 * x + y)%Z
  | _, _ => None
  end.

Definition leap (y : Z) : bool :=
  ((y mod 4 =? 0) && (negb (y mod 100 =? 0) || (y mod 400 =? 0)))%Z.

Definition days_in_month (y m : Z) : Z :=
  if (m =? 2)%Z then (if leap y then 29 else 28)%Z
  else if ((m =? 4) || (m =? 6) || (m =? 9) || (m =? 11))%Z then 30%Z
  else 31%Z.

Definition valid_date (y m d : Z) : bool :=
  ((1 <=? m) && (m <=? 12) && (1 <=? d) && (d <=? days_in_month y m))%Z.

(** The dates a nanosecond [datetime64] holds at midnight:
    1677-09-22 to 2262-04-11. *)
Definition in_bounds (y m d : Z) : bool :=
  let k := (10000 * y + 100 * m + d)%Z in
  ((16770922 <=? k) && (k <=? 22620411))%Z.

Definition dash (c : ascii) : bool := (nat_of_ascii c =? 45)%nat.

(** A string of the shape [YYYY-MM-DD] naming a calendar date within the
    bounds; anything else is not parsed. *)
Definition parse (s : string) : option Timestamp :=
  match s with
  | String y1 (String y2 (String y3 (String y4 (String s1
    (String m1 (String m2 (String s2
    (String d1 (String d2 EmptyString))))))))) =>
      match number4 y1 y2 y3 y4, number2 m1 m2, number2 d1 d2 with
      | Some y, Some m, Some d =>
          if dash s1 && dash s2 && valid_date y m d && in_bounds y m d
          then Some (mk_ts y m d) else None
      | _, _, _ => None
      end
  | _ => None
  end.

End Iso8601.

(** ** Exceptions, effects and the world *)

Inductive exn :=
| FileNotFoundError
| ValueError
| SystemExit (code : option Z).

Inductive result (A : Type) :=
| Return (a : A)
| Raise (e : exn).

Arguments Return {A} a.
Arguments Raise {A} e.

(** A chart handed to matplotlib. *)
Inductive figure :=
| LinePlot (data : list (Z * nat))
| BarPlot (data : list (string * nat))
| WordCloudImage (frequencies : list (string * nat)).

(** What a script shows: Streamlit elements, console lines, chart
    windows. *)
Inductive output :=
| Title (s : string)
| Write (s : string)
| Markdown (s : string)
| Header (s : string)
| Subheader (s : string)
| Dataframe (df : frame)
| Slider (label : string) (min_value max_value : Z) (value : Z * Z)
| Pyplot (fig : figure)
| Print (s : string)
| PrintHead (df : raw_frame)
| PrintColumns
| PrintInfoRaw (df : raw_frame)
| PrintNullCounts (counts : list (string * nat))
| PrintInfo (df : frame)
| PrintYearCounts (s : list (Z * nat))
| PrintJournalCounts (s : list (string * nat))
| Show (fig : figure).

(** The state a script runs in.  [fs path] is the frame [pd.read_csv]
    builds from the file at [path], [None] when there is no such file;
    [memo] is the entry Streamlit's [st.cache_data] keeps for [load_data];
    [shown] is what the run has displayed so far, oldest first. *)
Record world := mk_world {
  fs : string -> option raw_frame;
  memo : option frame;
  shown : list output
}.

(** Computations that read and change the world and may raise.  The world
    reached when the exception was raised is kept. *)
Definition M (A : Type) : Type := world -> result A * world.

Definition ret {A} (a : A) : M A := fun w => (Return a, w).

Definition raise {A} (e : exn) : M A := fun w => (Raise e, w).

Definition bind {A B} (m : M A) (k : A -> M B) : M B :=
  fun w => match m w with
           | (Return a, w') => k a w'
           | (Raise e, w') => (Raise e, w')
           end.

(** [try: m except e: handler] for one exception class without payload. *)
Definition try_except {A} (m : M A) (is_e : exn -> bool) (handler : M A)
  : M A :=
  fun w => match m w with
           | (Return a, w') => (Return a, w')
           | (Raise e, w') => if is_e e then handler w' else (Raise e, w')
           end.

Definition lift {A} (r : result A) : M A := fun w => (r, w).

Declare Scope py_scope.
Delimit Scope py_scope with py.
Notation "x <- m ;; k" := (bind m (fun x => k))
  (at level 61, m at next level, right associativity) : py_scope.
Notation "m ;; k" := (bind m (fun _ => k))
  (at level 61, right associativity) : py_scope.
Local Open Scope py_scope.

(** Any call that displays something. *)
Definition emit (o : output) : M unit :=
  fun w => (Return tt, mk_world (fs w) (memo w) (shown w ++ [o])).

(** [pd.read_csv(path)] *)
Definition read_csv (path : string) : M raw_frame :=
  fun w => match fs w path with
           | Some df => (Return df, w)
           | None => (Raise FileNotFoundError, w)
           end.

(** [int(x)] of a float: NaN cannot be converted. *)
Definition py_int (x : option Z) : M Z :=
  match x with
  | Some n => ret n
  | None => raise ValueError
  end.


(** [exit()] *)
Definition py_exit {A} : M A := raise (SystemExit None).

Definition is_FileNotFoundError (e : exn) : bool :=
  match e with FileNotFoundError => true | _ => false end.

(** Decimal text of a number, as an f-string prints it. *)
Fixpoint digits_of (fuel n : nat) (acc : string) : string :=
  match fuel with
  | O => acc
  | S fuel' =>
      let d := ascii_of_nat (48 + n mod 10) in
      if (n <? 10)%nat then String d acc
      else digits_of fuel' (n / 10) (String d acc)
  end.

Definition str_of_nat (n : nat) : string := digits_of (S n) n EmptyString.

(** ** The two scripts *)

Definition nl : string := String (ascii_of_nat 10) EmptyString.

Definition count_na {A} (col : list (option A)) : nat :=
  length (filter isna col).

(** [df.isnull().sum()] over the four columns of a frame as loaded. *)
Definition isnull_sum (df : raw_frame) : list (string * nat) :=
  [("title", count_na (map raw_title df));
   ("abstract", count_na (map raw_abstract df));
   ("journal", count_na (map raw_journal df));
   ("publish_time", count_na (map raw_publish_time df))].

Section Scripts.

(** [pd.to_datetime(col, errors='coerce')] decides how to read the column
    from its content and then reads each string; what it cannot read
    becomes NaT.  [parse_with col s] is the library's reading of [s] in
    column [col]. *)
Variable parse_with : list cell -> string -> option Timestamp.

(** The rows [DataFrame.sample] draws: the random generator's choice. *)
Variable random_sample : nat -> frame -> frame.

(** The word frequencies [WordCloud.generate] extracts from a text that is
    not empty (tokens, stop words and plurals are the library's). *)
Variable word_frequencies : string -> list (string * nat).

(** numpy's sorting routine behind [value_counts], see [Pd.value_counts]. *)
Variable argsort : forall K : Type, list (K * nat) -> list (K * nat).

Definition to_datetime (col : list cell) : list (option Timestamp) :=
  map (fun c => match c with
                | Some s => parse_with col s
                | None => None
                end) col.

(** Lines 13-15 and 133-139: replace [publish_time] by its parsed value,
    add [publication_year] and [abstract_word_count]. *)
Definition derive (df : raw_frame) : frame :=
  let parsed := to_datetime (map raw_publish_time df) in
  map (fun p =>
         let r := fst p in
         let t := snd p in
         mk_row (raw_title r) (raw_abstract r) (raw_journal r)
                t (Pd.dt_year t)
                (length (PyStr.split (py_str (raw_abstract r)))))
      (combine df parsed).

(** Cleaning and derivation, as both scripts do them after loading. *)
Definition prepare (df : raw_frame) : frame :=
  let df := Pd.dropna_title_abstract df in
  let df := Pd.fillna_journal "Unknown Journal" df in
  derive df.

(** The body of [load_data], lines 10-16. *)
Definition load_data_body : M frame :=
  df <- read_csv "metadata.csv" ;;
  ret (prepare df).

(** [@st.cache_data]: the first successful call stores its value, later
    calls return the stored value; an exception is not stored. *)
Definition cache_data (f : M frame) : M frame :=
  fun w => match memo w with
           | Some v => (Return v, w)
           | None =>
               match f w with
               | (Return v, w') =>
                   (Return v, mk_world (fs w') (Some v) (shown w'))
               | (Raise e, w') => (Raise e, w')
               end
           end.

Definition load_data : M frame := cache_data load_data_body.

(** [df.sample(n=10)]: refuses a sample larger than the frame. *)
Definition df_sample (n : nat) (df : frame) : M frame :=
  if (length df <? n)%nat then raise ValueError
  else ret (random_sample n df).

(** [WordCloud(...).generate(text)]: raises when no word is found, as on
    the empty text. *)
Definition WordCloud_generate (text : string) : M figure :=
  let freq := if PyStr.is_empty text then [] else word_frequencies text in
  match freq with
  | [] => raise ValueError
  | _ :: _ => ret (WordCloudImage freq)
  end.

(** [st.slider(label, min_value, max_value, value)]: shows the control and
    returns the user's selection [sel], the default [value] when the user
    has not moved it. *)
Definition st_slider (label : string) (min_value max_value : Z)
    (value : Z * Z) (sel : option (Z * Z)) : M (Z * Z) :=
  emit (Slider label min_value max_value value) ;;
  ret (match sel with Some v => v | None => value end).

(** Lines 42-47: the arguments are evaluated left to right, then the
    slider is shown. *)
Definition year_range (df : frame) (sel : option (Z * Z)) : M (Z * Z) :=
  let years := map publication_year df in
  min_value <- py_int (Pd.series_min years) ;;
  max_value <- py_int (Pd.series_max years) ;;
  value0 <- py_int (Pd.series_min years) ;;
  value1 <- py_int (Pd.series_max years) ;;
  st_slider "Select a publication year range:" min_value max_value
            (value0, value1) sel.

(** Line 50. *)
Definition filtered_df (df : frame) (year_range : Z * Z) : frame :=
  let years := map publication_year df in
  Pd.boolean_index df
    (Pd.mask_and (Pd.ge_scalar years (fst year_range))
                 (Pd.le_scalar years (snd year_range))).

(** Lines 54 and 146. *)
Definition papers_by_year (df : frame) : list (Z * nat) :=
  Pd.sort_index
    (Pd.value_counts Z.eqb (argsort Z) (map publication_year df)).

(** Lines 68 and 151. *)
Definition top_journals (df : frame) : list (string * nat) :=
  Pd.head 10
    (Pd.value_counts String.eqb (argsort string) (map journal df)).

(** Lines 82 and 178. *)
Definition all_titles (df : frame) : string :=
  PyStr.join " " (map py_str (map title df)).

(** Lines 81-90: the word cloud of the interactive script. *)
Definition st_word_cloud (df : frame) : M unit :=
  emit (Subheader "Word Cloud of Paper Titles") ;;
  let all_titles := all_titles df in
  if PyStr.truthy all_titles
  then (wordcloud <- WordCloud_generate all_titles ;;
        emit (Pyplot wordcloud))
  else emit (Write "No data available for the selected year range to generate a word cloud.").

(** Lines 18-90: one run of the interactive script, [sel] being the
    position of the slider in this run. *)
Definition streamlit_app (sel : option (Z * Z)) : M unit :=
  df <- load_data ;;
  emit (Title "CORD-19 Data Explorer 🔬") ;;
  emit (Write "A simple application to explore the CORD-19 research challenge metadata.") ;;
  emit (Markdown (nl ++ "---" ++ nl)) ;;
  emit (Header "Raw Data Sample") ;;
  emit (Write "A small sample of the cleaned dataset:") ;;
  sample <- df_sample 10 df ;;
  emit (Dataframe sample) ;;
  emit (Markdown (nl ++ "---" ++ nl)) ;;
  emit (Header "Data Insights and Visualizations") ;;
  year_range <- year_range df sel ;;
  let filtered_df := filtered_df df year_range in
  emit (Subheader "Publications Over Time") ;;
  emit (Pyplot (LinePlot (papers_by_year filtered_df))) ;;
  emit (Markdown (nl ++ "---" ++ nl)) ;;
  emit (Subheader "Top 10 Publishing Journals") ;;
  emit (Pyplot (BarPlot (top_journals filtered_df))) ;;
  emit (Markdown (nl ++ "---" ++ nl)) ;;
  st_word_cloud filtered_df.

(** Lines 98-103: loading in the console script. *)
Definition console_load : M raw_frame :=
  try_except
    (df <- read_csv "metadata.csv" ;;
     emit (Print "Data loaded successfully!") ;;
     ret df)
    is_FileNotFoundError
    (emit (Print "Error: The file 'metadata.csv' was not found. Please ensure it's in the same directory.") ;;
     py_exit).

(** Lines 177-188: the word cloud of the console script. *)
Definition console_word_cloud (cleaned_df : frame) : M unit :=
  let all_titles := all_titles cleaned_df in
  wordcloud <- WordCloud_generate all_titles ;;
  emit (Show wordcloud).

(** Lines 94-188: the console script. *)
Definition console_report : M unit :=
  df <- console_load ;;
  emit (Print (nl ++ "First 5 rows of the DataFrame:")) ;;
  emit (PrintHead (Pd.head 5 df)) ;;
  emit (Print (nl ++ "DataFrame dimensions:")) ;;
  emit (Print ("Number of rows: " ++ str_of_nat (length df))) ;;
  emit PrintColumns ;;
  emit (Print (nl ++ "DataFrame information:")) ;;
  emit (PrintInfoRaw df) ;;
  emit (Print (nl ++ "Missing values per column:")) ;;
  emit (PrintNullCounts (isnull_sum df)) ;;
  let cleaned_df := Pd.dropna_title_abstract df in
  let cleaned_df := Pd.fillna_journal "Unknown Journal" cleaned_df in
  emit (Print (nl ++ "Missing values after cleaning:")) ;;
  emit (PrintNullCounts (isnull_sum cleaned_df)) ;;
  let cleaned_df := derive cleaned_df in
  emit (Print (nl ++ "DataFrame info after preparation:")) ;;
  emit (PrintInfo cleaned_df) ;;
  emit (Print "None") ;;
  let papers_by_year := papers_by_year cleaned_df in
  emit (Print (nl ++ "Papers published per year:")) ;;
  emit (PrintYearCounts papers_by_year) ;;
  let top_journals := top_journals cleaned_df in
  emit (Print (nl ++ "Top 10 publishing journals:")) ;;
  emit (PrintJournalCounts top_journals) ;;
  emit (Show (LinePlot papers_by_year)) ;;
  emit (Show (BarPlot top_journals)) ;;
  console_word_cloud cleaned_df.

End Scripts.

(** ** Notions the properties are stated with *)

(** The year lies in the closed interval; a NaN year lies in none. *)
Definition year_within (lo hi : Z) (r : row) : bool :=
  match publication_year r with
  | Some y => ((lo <=? y) && (y <=? hi))%Z
  | None => false
  end.

(** A row without NaN in the three text columns. *)
Definition complete_raw (r : raw_row) : Prop :=
  raw_title r <> None /\ raw_abstract r <> None /\ raw_journal r <> None.



Section FirstSeen.

Context {K : Type}.
Variable eqb : K -> K -> bool.

Definition holds (k : K) (c : option K) : bool :=
  match c with Some k' => eqb k k' | None => false end.

(** Position of the first cell of the column holding [k]; the length of
    the column when no cell does. *)
Fixpoint first_seen (k : K) (col : list (option K)) : nat :=
  match col with
  | [] => 0
  | c :: rest => if holds k c then 0 else S (first_seen k rest)
  end.

(** Number of cells of the column holding [k]. *)
Definition occurrences (k : K) (col : list (option K)) : nat :=
  length (filter (holds k) col).


Definition mem_key (k : K) (acc : list (K * nat)) : bool :=
  existsb (fun e => eqb k (fst e)) acc.

(** What the counting pass has built after reading [col]. *)
Record counted (col : list (option K)) (acc : list (K * nat)) : Prop := {
  counted_keys :
    forall k, In k (map fst acc) <-> first_seen k col < length col;
  counted_order :
    StronglySorted (fun a b => first_seen a col < first_seen b col)
                   (map fst acc);
  counted_values :
    Forall (fun e => snd e = occurrences (fst e) col) acc
}.

End FirstSeen.


(** The contract of numpy's [argsort]: the same entries, by ascending
    count. *)
Definition sorts_ascending
    (argsort : forall K : Type, list (K * nat) -> list (K * nat)) : Prop :=
  forall (K : Type) (l : list (K * nat)),
    Permutation (argsort K l) l /\
    StronglySorted (fun a b => snd a <= snd b) (argsort K l).

(** The world in which no file exists and nothing is cached or shown. *)
Definition no_file : world := mk_world (fun _ => None) None [].

(** A world whose [metadata.csv] holds the frame [df]. *)
Definition with_file (df : raw_frame) : world :=
  mk_world (fun p => if String.eqb p "metadata.csv" then Some df else None)
           None [].

(** The three-row table of the end-to-end scenario. *)
Definition scenario (t1 t2 t3 a1 a2 a3 : string) : raw_frame :=
  [ mk_raw (Some t1) (Some a1) (Some "J1") (Some "2020-01-01");
    mk_raw (Some t2) (Some a2) None (Some "not-a-date");
    mk_raw (Some t3) (Some a3) (Some "J1") (Some "2021-06-15") ].

Definition is_slider (o : output) : bool :=
  match o with Slider _ _ _ _ => true | _ => false end.

Definition is_chart (o : output) : bool :=
  match o with Pyplot _ | Show _ => true | _ => false end.

(** The row has a year. *)
Definition has_year (r : row) : bool := notna (publication_year r).

(** Sum of the counts of a series. *)
Definition total {K} (s : list (K * nat)) : nat := list_sum (map snd s).

(** The cleaning both scripts apply to the frame as loaded (lines 11-12
    and 123-126). *)
Definition clean (df : raw_frame) : raw_frame :=
  Pd.fillna_journal "Unknown Journal" (Pd.dropna_title_abstract df).

(** The world [w] after [metadata.csv] has been written or replaced. *)
Definition put_file (raw : raw_frame) (w : world) : world :=
  mk_world (fun p => if String.eqb p "metadata.csv" then Some raw else fs w p)
           (memo w) (shown w).





(** * Properties *)

(** ** Cleaning *)

Lemma dropna_complete (df : raw_frame) :
  Forall (fun r => raw_title r <> None /\ raw_abstract r <> None)
         (Pd.dropna_title_abstract df).
Proof.
  unfold Pd.dropna_title_abstract.
  apply Forall_forall. intros r Hin.
  apply filter_In in Hin. destruct Hin as [_ Hkeep].
  apply andb_true_iff in Hkeep. destruct Hkeep as [Ht Ha].
  destruct (raw_title r), (raw_abstract r); try discriminate.
  split; discriminate.
Qed.

Lemma fillna_cell_notna (v : string) (c : cell) : Pd.fillna_cell v c <> None.
Proof. destruct c; discriminate. Qed.

Lemma fillna_journal_complete (v : string) (df : raw_frame) :
  Forall (fun r => raw_title r <> None /\ raw_abstract r <> None) df ->
  Forall complete_raw (Pd.fillna_journal v df).
Proof.
  induction 1 as [|r rest [Ht Ha] _ IH]; simpl; constructor; auto.
  unfold complete_raw; simpl. auto using fillna_cell_notna.
Qed.





(** ** The year filter *)

Lemma boolean_index_map {A} (p : A -> bool) (l : list A) :
  Pd.boolean_index l (map p l) = filter p l.
Proof.
  unfold Pd.boolean_index.
  induction l as [|x rest IH]; simpl; [reflexivity|].
  destruct (p x); simpl; rewrite IH; reflexivity.
Qed.

Lemma mask_and_map {A} (p q : A -> bool) (l : list A) :
  Pd.mask_and (map p l) (map q l) = map (fun x => p x && q x) l.
Proof.
  unfold Pd.mask_and.
  induction l as [|x rest IH]; simpl; [reflexivity|].
  rewrite IH. reflexivity.
Qed.

Lemma filtered_df_filter (df : frame) (lo hi : Z) :
  filtered_df df (lo, hi) = filter (year_within lo hi) df.
Proof.
  unfold filtered_df, Pd.ge_scalar, Pd.le_scalar. simpl fst; simpl snd.
  rewrite !map_map, mask_and_map, boolean_index_map.
  apply filter_ext. intros r. unfold year_within.
  destruct (publication_year r); reflexivity.
Qed.

Lemma year_within_spec (lo hi : Z) (r : row) :
  year_within lo hi r = true <->
  exists y, publication_year r = Some y /\ (lo <= y <= hi)%Z.
Proof.
  unfold year_within. destruct (publication_year r) as [y|].
  - rewrite andb_true_iff, !Z.leb_le. split.
    + intros H. exists y. split; [reflexivity | lia].
    + intros (y' & Hy & H). injection Hy as ->. lia.
  - split; [discriminate | intros (y & Hy & _); discriminate].
Qed.

(** C2.  For every table and every selected pair [lo], [hi] (so also for
    each selection inside the observed bounds), the filtered view is the
    table restricted, in order and with repetitions, to the rows whose
    year is present and within the closed interval: a row is in the view
    exactly when it is such a row of the table, and a row whose year is
    NaN never is. *)
Theorem year_filter_exact (df : frame) (lo hi : Z) :
  filtered_df df (lo, hi) = filter (year_within lo hi) df /\
  (forall r, In r (filtered_df df (lo, hi)) <->
             In r df /\
             exists y, publication_year r = Some y /\ (lo <= y <= hi)%Z) /\
  Forall (fun r => publication_year r <> None) (filtered_df df (lo, hi)).
Proof.
  rewrite filtered_df_filter. split; [reflexivity|]. split.
  - intros r. rewrite filter_In, year_within_spec. reflexivity.
  - apply Forall_forall. intros r Hin. apply filter_In in Hin.
    destruct Hin as [_ Hw]. apply year_within_spec in Hw.
    destruct Hw as (y & Hy & _). rewrite Hy. discriminate.
Qed.

(** ** The word count *)















(** ** Sorting routines *)

Section InsertionFacts.

Context {K : Type}.
Variable goes_first : nat -> nat -> bool.

Lemma insert_by_perm (x : K * nat) (l : list (K * nat)) :
  Permutation (Pd.insert_by goes_first x l) (x :: l).
Proof.
  induction l as [|y rest IH]; simpl; [reflexivity|].
  destruct (goes_first (snd x) (snd y)); [reflexivity|].
  rewrite IH. apply perm_swap.
Qed.

Lemma insertion_sort_perm (l : list (K * nat)) :
  Permutation (Pd.insertion_sort goes_first l) l.
Proof.
  induction l as [|x rest IH]; simpl; [reflexivity|].
  rewrite insert_by_perm, IH. reflexivity.
Qed.

Hypothesis first_le : forall a b, goes_first a b = true -> a <= b.
Hypothesis behind_ge : forall a b, goes_first a b = false -> b <= a.

Lemma insert_by_sorted (x : K * nat) (l : list (K * nat)) :
  StronglySorted (fun a b => snd a <= snd b) l ->
  StronglySorted (fun a b => snd a <= snd b) (Pd.insert_by goes_first x l).
Proof.
  induction 1 as [|y rest Hsorted IH Hy]; simpl.
  - constructor; constructor.
  - destruct (goes_first (snd x) (snd y)) eqn:E.
    + apply first_le in E.
      constructor; [constructor; assumption|].
      constructor; [exact E|].
      eapply Forall_impl; [|exact Hy]. simpl. intros z Hz. lia.
    + apply behind_ge in E.
      constructor; [exact IH|].
      eapply Permutation_Forall; [symmetry; apply insert_by_perm|].
      constructor; assumption.
Qed.

Lemma insertion_sort_sorted (l : list (K * nat)) :
  StronglySorted (fun a b => snd a <= snd b) (Pd.insertion_sort goes_first l).
Proof.
  induction l as [|x rest IH]; simpl; [constructor|].
  apply insert_by_sorted. exact IH.
Qed.

End InsertionFacts.

Lemma stable_argsort_sorts : sorts_ascending Pd.stable_argsort.
Proof.
  intros K l. split.
  - apply insertion_sort_perm.
  - apply insertion_sort_sorted; intros a b H.
    + apply Nat.leb_le in H. exact H.
    + apply Nat.leb_gt in H. lia.
Qed.


Section SortFacts.

Context {K : Type}.

Lemma StronglySorted_snoc {A} (R : A -> A -> Prop) (l : list A) (x : A) :
  StronglySorted R l -> Forall (fun y => R y x) l ->
  StronglySorted R (l ++ [x]).
Proof.
  induction 1 as [|y rest Hsorted IH Hy]; intros Hx; simpl.
  - constructor; constructor.
  - inversion Hx; subst. constructor; [auto|].
    apply Forall_app. split; [assumption | constructor; auto].
Qed.

Lemma StronglySorted_rev {A} (R : A -> A -> Prop) (l : list A) :
  StronglySorted R l -> StronglySorted (fun a b => R b a) (rev l).
Proof.
  induction 1 as [|x rest Hsorted IH Hx]; simpl; [constructor|].
  apply StronglySorted_snoc; [assumption|].
  apply Forall_rev. exact Hx.
Qed.





(** What every routine meeting the contract gives [sort_values]. *)
Section AnyRoutine.

Variable argsort : list (K * nat) -> list (K * nat).
Hypothesis argsort_perm : forall l, Permutation (argsort l) l.
Hypothesis argsort_sorted :
  forall l, StronglySorted (fun a b => snd a <= snd b) (argsort l).

Lemma sort_values_desc_perm (l : list (K * nat)) :
  Permutation (Pd.sort_values_desc argsort l) l.
Proof.
  unfold Pd.sort_values_desc.
  rewrite <- Permutation_rev, argsort_perm, <- Permutation_rev. reflexivity.
Qed.

Lemma sort_values_desc_descending (l : list (K * nat)) :
  StronglySorted (fun a b => snd b <= snd a) (Pd.sort_values_desc argsort l).
Proof.
  unfold Pd.sort_values_desc.
  apply (StronglySorted_rev (fun a b => snd a <= snd b)), argsort_sorted.
Qed.

End AnyRoutine.




End SortFacts.

(** ** Counting *)

Section CountFacts.

Context {K : Type}.
Variable eqb : K -> K -> bool.
Hypothesis eqb_eq : forall a b, eqb a b = true <-> a = b.

Lemma eqb_refl' (k : K) : eqb k k = true.
Proof. apply eqb_eq. reflexivity. Qed.

Lemma eqb_sym' (a b : K) : eqb a b = eqb b a.
Proof.
  destruct (eqb a b) eqn:E1, (eqb b a) eqn:E2; try reflexivity.
  - apply eqb_eq in E1. subst. rewrite eqb_refl' in E2. discriminate.
  - apply eqb_eq in E2. subst. rewrite eqb_refl' in E1. discriminate.
Qed.

Lemma first_seen_le (k : K) (col : list (option K)) :
  first_seen eqb k col <= length col.
Proof.
  induction col as [|c rest IH]; simpl; [lia|].
  destruct (holds eqb k c); lia.
Qed.

Lemma first_seen_app (k : K) (a b : list (option K)) :
  first_seen eqb k (a ++ b) =
  if first_seen eqb k a <? length a then first_seen eqb k a
  else length a + first_seen eqb k b.
Proof.
  induction a as [|c rest IH]; simpl; [reflexivity|].
  destruct (holds eqb k c); [reflexivity|].
  rewrite IH.
  change (S (first_seen eqb k rest) <? S (length rest))
    with (first_seen eqb k rest <? length rest).
  destruct (first_seen eqb k rest <? length rest); reflexivity.
Qed.

(** A key already met keeps its position when the column grows. *)
Lemma first_seen_snoc_old (k : K) (col : list (option K)) (v : option K) :
  first_seen eqb k col < length col ->
  first_seen eqb k (col ++ [v]) = first_seen eqb k col.
Proof.
  intros H. rewrite first_seen_app.
  apply Nat.ltb_lt in H. rewrite H. reflexivity.
Qed.

Lemma first_seen_snoc_new (k : K) (col : list (option K)) (v : option K) :
  ~ first_seen eqb k col < length col ->
  first_seen eqb k (col ++ [v]) =
  length col + (if holds eqb k v then 0 else 1).
Proof.
  intros H. rewrite first_seen_app.
  apply Nat.ltb_nlt in H. rewrite H. simpl.
  destruct (holds eqb k v); reflexivity.
Qed.

Lemma occurrences_snoc (k : K) (col : list (option K)) (v : option K) :
  occurrences eqb k (col ++ [v]) =
  occurrences eqb k col + (if holds eqb k v then 1 else 0).
Proof.
  unfold occurrences. rewrite filter_app, length_app. simpl.
  destruct (holds eqb k v); reflexivity.
Qed.

Lemma occurrences_unseen (k : K) (col : list (option K)) :
  ~ first_seen eqb k col < length col -> occurrences eqb k col = 0.
Proof.
  unfold occurrences.
  induction col as [|c rest IH]; simpl; intros H; [reflexivity|].
  destruct (holds eqb k c); [exfalso; apply H; lia|].
  apply IH. lia.
Qed.

Lemma occurrences_seen (k : K) (col : list (option K)) :
  first_seen eqb k col < length col -> 0 < occurrences eqb k col.
Proof.
  unfold occurrences.
  induction col as [|c rest IH]; simpl; intros H; [lia|].
  destruct (holds eqb k c); simpl; [lia|].
  apply IH. lia.
Qed.

Lemma mem_key_In (k : K) (acc : list (K * nat)) :
  mem_key eqb k acc = true <-> In k (map fst acc).
Proof.
  unfold mem_key. rewrite existsb_exists, in_map_iff. split.
  - intros (e & Hin & He). apply eqb_eq in He. exists e. auto.
  - intros (e & He & Hin). exists e. split; [assumption|].
    apply eqb_eq. auto.
Qed.

Lemma bump_seen (k : K) (acc : list (K * nat)) :
  mem_key eqb k acc = true -> map fst (Pd.bump eqb k acc) = map fst acc.
Proof.
  induction acc as [|[k' n] rest IH]; simpl; [discriminate|].
  destruct (eqb k k'); simpl; [reflexivity|].
  intros H. rewrite IH; auto.
Qed.

Lemma bump_new (k : K) (acc : list (K * nat)) :
  mem_key eqb k acc = false -> Pd.bump eqb k acc = acc ++ [(k, 1)].
Proof.
  induction acc as [|[k' n] rest IH]; simpl; [reflexivity|].
  destruct (eqb k k'); simpl; [discriminate|].
  intros H. rewrite IH; auto.
Qed.

(** [bump] adds one to the counter of [k] and to no other, provided no
    key is listed twice. *)
Lemma bump_counts (f : K -> nat) (k : K) (acc : list (K * nat)) :
  NoDup (map fst acc) ->
  Forall (fun e => snd e = f (fst e)) acc ->
  (mem_key eqb k acc = false -> f k = 0) ->
  Forall (fun e => snd e = f (fst e) + (if eqb (fst e) k then 1 else 0))
         (Pd.bump eqb k acc).
Proof.
  induction acc as [|[k' n] rest IH]; simpl; intros Hnd Hall Hnew.
  - constructor; [|constructor]. simpl. rewrite eqb_refl', Hnew; reflexivity.
  - inversion Hnd as [|? ? Hnotin Hnd']; subst.
    inversion Hall as [|? ? Hhead Hrest]; subst. simpl in Hhead.
    destruct (eqb k k') eqn:E.
    + apply eqb_eq in E. subst k'.
      constructor.
      * simpl. rewrite eqb_refl'. lia.
      * rewrite Forall_forall in *. intros e He.
        rewrite (Hrest e He).
        destruct (eqb (fst e) k) eqn:E'; [|lia].
        apply eqb_eq in E'. subst k. exfalso. apply Hnotin.
        apply in_map. exact He.
    + constructor.
      * simpl. rewrite eqb_sym', E. lia.
      * apply IH; auto.
Qed.


Lemma StronglySorted_lt_NoDup {A} (g : A -> nat) (l : list A) :
  StronglySorted (fun a b => g a < g b) l -> NoDup l.
Proof.
  induction 1 as [|x rest Hsorted IH Hx]; constructor; [|assumption].
  intros Hin. rewrite Forall_forall in Hx. specialize (Hx x Hin). lia.
Qed.

Lemma StronglySorted_ext {A} (f g : A -> nat) (l : list A) :
  (forall x, In x l -> f x = g x) ->
  StronglySorted (fun a b => f a < f b) l ->
  StronglySorted (fun a b => g a < g b) l.
Proof.
  intros Hfg H. induction H as [|x rest Hsorted IH Hx]; constructor.
  - apply IH. intros y Hy. apply Hfg. right. exact Hy.
  - rewrite Forall_forall in *. intros y Hy.
    rewrite <- (Hfg x), <- (Hfg y); [auto | right; auto | left; auto].
Qed.

Lemma counted_nil : counted eqb [] [].
Proof.
  constructor; simpl.
  - intros k. split; [tauto | lia].
  - constructor.
  - constructor.
Qed.

Lemma counted_skip (col : list (option K)) (acc : list (K * nat)) :
  counted eqb col acc -> counted eqb (col ++ [None]) acc.
Proof.
  intros [Hk Ho Hv]. constructor.
  - intros k. rewrite Hk, length_app. simpl. split; intros H.
    + rewrite first_seen_snoc_old; lia.
    + destruct (Nat.lt_ge_cases (first_seen eqb k col) (length col)) as [|Hge];
        [assumption|].
      rewrite first_seen_snoc_new in H; simpl in H; lia.
  - eapply StronglySorted_ext; [|exact Ho].
    intros k Hin. symmetry. apply first_seen_snoc_old, Hk, Hin.
  - eapply Forall_impl; [|exact Hv]. intros e He. simpl in He.
    rewrite occurrences_snoc. simpl. lia.
Qed.

Lemma counted_bump (col : list (option K)) (acc : list (K * nat)) (k0 : K) :
  counted eqb col acc ->
  counted eqb (col ++ [Some k0]) (Pd.bump eqb k0 acc).
Proof.
  intros [Hk Ho Hv].
  assert (Hlen : length (col ++ [Some k0]) = S (length col))
    by (rewrite length_app; simpl; lia).
  assert (Hvalues :
            Forall (fun e => snd e = occurrences eqb (fst e) (col ++ [Some k0]))
                   (Pd.bump eqb k0 acc)).
  { eapply Forall_impl;
      [| apply (bump_counts (fun k => occurrences eqb k col) k0 acc)].
    - intros e He. simpl in He. rewrite occurrences_snoc. exact He.
    - apply StronglySorted_lt_NoDup in Ho. exact Ho.
    - exact Hv.
    - intros Hnew. apply occurrences_unseen. rewrite <- Hk, <- mem_key_In.
      rewrite Hnew. discriminate. }
  assert (Hlate : forall k, ~ first_seen eqb k col < length col ->
            first_seen eqb k (col ++ [Some k0]) < S (length col) -> k = k0).
  { intros k Hunseen Hlt. rewrite first_seen_snoc_new in Hlt by assumption.
    simpl in Hlt. destruct (eqb k k0) eqn:E; [apply eqb_eq; exact E | lia]. }
  destruct (mem_key eqb k0 acc) eqn:Hmem.
  - assert (Hseen : first_seen eqb k0 col < length col)
      by (apply Hk, mem_key_In, Hmem).
    constructor; [| |exact Hvalues]; rewrite bump_seen by assumption.
    + intros k. rewrite Hk, Hlen. split; intros H.
      * rewrite first_seen_snoc_old; lia.
      * destruct (Nat.lt_ge_cases (first_seen eqb k col) (length col))
          as [|Hge]; [assumption|].
        rewrite (Hlate k) by lia. exact Hseen.
    + eapply StronglySorted_ext; [|exact Ho].
      intros k Hin. symmetry. apply first_seen_snoc_old, Hk, Hin.
  - assert (Hunseen : ~ first_seen eqb k0 col < length col).
    { rewrite <- Hk, <- mem_key_In, Hmem. discriminate. }
    assert (Hk0 : first_seen eqb k0 (col ++ [Some k0]) = length col).
    { rewrite first_seen_snoc_new by assumption. simpl.
      rewrite eqb_refl'. lia. }
    constructor; [| |exact Hvalues]; rewrite bump_new by assumption;
      rewrite map_app; simpl.
    + intros k. rewrite in_app_iff, Hk, Hlen. simpl. split.
      * intros [H | [<- | []]]; [rewrite first_seen_snoc_old; lia|].
        rewrite Hk0. lia.
      * intros H.
        destruct (Nat.lt_ge_cases (first_seen eqb k col) (length col))
          as [|Hge]; [left; assumption|].
        right. left. symmetry. apply Hlate; [lia | exact H].
    + apply StronglySorted_snoc.
      * eapply StronglySorted_ext; [|exact Ho].
        intros k Hin. symmetry. apply first_seen_snoc_old, Hk, Hin.
      * apply Forall_forall. intros k Hin. apply Hk in Hin.
        rewrite first_seen_snoc_old, Hk0 by assumption. exact Hin.
Qed.

Lemma count_keys_snoc (col : list (option K)) (v : option K) :
  Pd.count_keys eqb (col ++ [v]) =
  match v with
  | Some k => Pd.bump eqb k (Pd.count_keys eqb col)
  | None => Pd.count_keys eqb col
  end.
Proof. unfold Pd.count_keys. rewrite fold_left_app. reflexivity. Qed.

(** The counting pass lists each key of the column once, in order of
    first appearance, with its number of occurrences. *)
Lemma count_keys_counted (col : list (option K)) :
  counted eqb col (Pd.count_keys eqb col).
Proof.
  induction col as [|v col IH] using rev_ind.
  - apply counted_nil.
  - rewrite count_keys_snoc. destruct v as [k|].
    + apply counted_bump. exact IH.
    + apply counted_skip. exact IH.
Qed.

(** [value_counts] with any routine meeting the contract: descending
    counts, each key once, every count the number of cells holding it. *)
Lemma value_counts_any (argsort : list (K * nat) -> list (K * nat))
    (col : list (option K)) :
  (forall l, Permutation (argsort l) l) ->
  (forall l, StronglySorted (fun a b => snd a <= snd b) (argsort l)) ->
  StronglySorted (fun a b => snd b <= snd a)
                 (Pd.value_counts eqb argsort col) /\
  NoDup (map fst (Pd.value_counts eqb argsort col)) /\
  Forall (fun e => snd e = occurrences eqb (fst e) col /\ 0 < snd e)
         (Pd.value_counts eqb argsort col).
Proof.
  intros Hperm Hsorted.
  destruct (count_keys_counted col) as [Hk Ho Hv].
  unfold Pd.value_counts. split; [|split].
  - apply sort_values_desc_descending. exact Hsorted.
  - eapply Permutation_NoDup.
    + apply Permutation_map. symmetry.
      apply sort_values_desc_perm. exact Hperm.
    + eapply StronglySorted_lt_NoDup. exact Ho.
  - eapply Permutation_Forall;
      [symmetry; apply sort_values_desc_perm; exact Hperm|].
    apply Forall_forall. intros e He. rewrite Forall_forall in Hv.
    split; [apply Hv; exact He|].
    rewrite (Hv e He). apply occurrences_seen, Hk, in_map, He.
Qed.


End CountFacts.

(** ** Top journals *)






(** ** The end-to-end scenario *)




(** ** The word cloud on an empty corpus *)

Lemma all_titles_empty : all_titles [] = EmptyString.
Proof. reflexivity. Qed.


(** C5 at the input on which the console script departs from it.  The
    console script has no guard before [generate]: on a cleaned table
    without rows the corpus is empty, [generate] raises [ValueError] and
    nothing is shown; run on a file whose only row lacks a title, the
    script ends with that exception. *)
Theorem console_word_cloud_empty_raises
    parse_with word_frequencies argsort (w : world) :
  console_word_cloud word_frequencies [] w = (Raise ValueError, w) /\
  fst (console_report parse_with word_frequencies argsort
         (with_file [mk_raw None (Some "a") (Some "J1") (Some "2020-01-01")]))
  = Raise ValueError.
Proof. split; reflexivity. Qed.

(** ** A missing input file *)





(** ** Repeated preparation *)

Lemma load_data_body_pure parse_with (w : world) :
  load_data_body parse_with w =
  (match fs w "metadata.csv" with
   | Some raw => Return (prepare parse_with raw)
   | None => Raise FileNotFoundError
   end, w).
Proof.
  unfold load_data_body, bind, read_csv, ret.
  destruct (fs w "metadata.csv"); reflexivity.
Qed.


(** ** The slider bounds *)

Lemma series_min_all_nan (col : list (option Z)) :
  Forall (fun v => v = None) col -> Pd.series_min col = None.
Proof.
  unfold Pd.series_min.
  induction 1 as [|v rest Hv _ IH]; simpl; [reflexivity|].
  subst v. exact IH.
Qed.

Lemma years_all_nan (df : frame) :
  Forall (fun r => publication_year r = None) df ->
  Forall (fun v => v = None) (map publication_year df).
Proof. intros H. apply Forall_map. exact H. Qed.

Lemma year_range_all_nan (df : frame) (sel : option (Z * Z)) (w : world) :
  Forall (fun r => publication_year r = None) df ->
  year_range df sel w = (Raise ValueError, w).
Proof.
  intros Hnan. unfold year_range, bind.
  rewrite (series_min_all_nan _ (years_all_nan df Hnan)). reflexivity.
Qed.

Lemma bind_return {A B} (m : M A) (k : A -> M B) (w w' : world) (a : A) :
  m w = (Return a, w') -> bind m k w = k a w'.
Proof. intros H. unfold bind. rewrite H. reflexivity. Qed.

Lemma load_data_shown parse_with (w : world) :
  shown (snd (load_data parse_with w)) = shown w.
Proof.
  unfold load_data, cache_data. rewrite load_data_body_pure.
  destruct (memo w); [reflexivity|].
  destruct (fs w "metadata.csv"); reflexivity.
Qed.

(** A run of the interactive script on a table without years: what is
    shown before the exception. *)
Lemma streamlit_run_without_years
    parse_with random_sample word_frequencies argsort
    (df : frame) (sel : option (Z * Z)) (w w1 : world) :
  Forall (fun r => publication_year r = None) df ->
  load_data parse_with w = (Return df, w1) ->
  streamlit_app parse_with random_sample word_frequencies argsort sel w =
  (Raise ValueError,
   mk_world (fs w1) (memo w1)
     (shown w1 ++
      [Title "CORD-19 Data Explorer 🔬";
       Write "A simple application to explore the CORD-19 research challenge metadata.";
       Markdown (nl ++ "---" ++ nl);
       Header "Raw Data Sample";
       Write "A small sample of the cleaned dataset:"] ++
      (if length df <? 10 then []
       else [Dataframe (random_sample 10 df);
             Markdown (nl ++ "---" ++ nl);
             Header "Data Insights and Visualizations"]))).
Proof.
  intros Hnan Hload.
  unfold streamlit_app. rewrite (bind_return _ _ _ _ _ Hload).
  unfold bind, emit, df_sample. cbn [fs memo shown].
  destruct (length df <? 10).
  - unfold raise. rewrite <- !app_assoc. reflexivity.
  - unfold ret. cbn [fs memo shown].
    rewrite year_range_all_nan by exact Hnan.
    rewrite <- !app_assoc. reflexivity.
Qed.

(** C10.  When no row of the table has a year (the empty table
    included), evaluating the bounds of the slider raises [ValueError] at
    the first [int(...)] and the slider is not shown.  A run of the
    interactive script in which [load_data] returns such a table
    therefore ends with [ValueError] (raised by the bounds, or already by
    the sample of 10 rows when the table has fewer) and shows neither the
    slider nor any chart. *)
Theorem slider_bounds_raise_without_years
    parse_with random_sample word_frequencies argsort
    (df : frame) (sel : option (Z * Z)) (w : world) :
  Forall (fun r => publication_year r = None) df ->
  year_range df sel w = (Raise ValueError, w) /\
  (fst (load_data parse_with w) = Return df ->
   fst (streamlit_app parse_with random_sample word_frequencies argsort
          sel w) = Raise ValueError /\
   filter is_slider
     (shown (snd (streamlit_app parse_with random_sample word_frequencies
                    argsort sel w)))
   = filter is_slider (shown w) /\
   filter is_chart
     (shown (snd (streamlit_app parse_with random_sample word_frequencies
                    argsort sel w)))
   = filter is_chart (shown w)).
Proof.
  intros Hnan. split; [apply year_range_all_nan; exact Hnan|].
  intros Hload.
  pose proof (load_data_shown parse_with w) as Hshown.
  destruct (load_data parse_with w) as [r w1] eqn:Hrun.
  simpl in Hload, Hshown. subst r.
  rewrite (streamlit_run_without_years parse_with random_sample
             word_frequencies argsort df sel w w1 Hnan Hrun).
  cbn [fst snd shown]. split; [reflexivity|].
  rewrite Hshown, !filter_app.
  destruct (length df <? 10); simpl; rewrite !app_nil_r; auto.
Qed.

Lemma slider_bounds_raise_without_years_witness :
  Forall (fun r => publication_year r = None)
         [mk_row (Some "t") (Some "a") (Some "J1") None None 1] /\
  year_range [mk_row (Some "t") (Some "a") (Some "J1") None None 1]
             None no_file
  = (Raise ValueError, no_file).
Proof.
  split; [constructor; [reflexivity | constructor]|].
  apply (slider_bounds_raise_without_years
           (fun _ => Iso8601.parse) (fun n l => firstn n l)
           (fun _ => []) Pd.stable_argsort).
  constructor; [reflexivity | constructor].
Defined.

(** * Further properties of the scripts *)

(** ** Preparation *)




Lemma dropna_on_complete (df : raw_frame) :
  Forall (fun r => raw_title r <> None /\ raw_abstract r <> None) df ->
  Pd.dropna_title_abstract df = df.
Proof.
  unfold Pd.dropna_title_abstract.
  induction 1 as [|r rest [Ht Ha] _ IH]; simpl; [reflexivity|].
  destruct (raw_title r); [|congruence].
  destruct (raw_abstract r); [|congruence].
  simpl. rewrite IH. reflexivity.
Qed.

Lemma fillna_on_complete (v : string) (df : raw_frame) :
  Forall (fun r => raw_journal r <> None) df -> Pd.fillna_journal v df = df.
Proof.
  unfold Pd.fillna_journal.
  induction 1 as [|r rest Hj _ IH]; simpl; [reflexivity|].
  rewrite IH. destruct r as [t a [j|] p]; simpl in *; congruence.
Qed.

Lemma clean_complete (df : raw_frame) : Forall complete_raw (clean df).
Proof. apply fillna_journal_complete, dropna_complete. Qed.

Lemma clean_on_complete (df : raw_frame) :
  Forall complete_raw df -> clean df = df.
Proof.
  intros H. unfold clean.
  rewrite dropna_on_complete.
  - apply fillna_on_complete. eapply Forall_impl; [|exact H].
    intros r (_ & _ & Hj). exact Hj.
  - eapply Forall_impl; [|exact H]. intros r (Ht & Ha & _). auto.
Qed.

(** X2.  Cleaning a cleaned frame changes nothing: dropping the rows
    without title or abstract and filling the absent journals, done a
    second time, gives the frame of the first time. *)
Theorem clean_idempotent (df : raw_frame) :
  Pd.fillna_journal "Unknown Journal"
    (Pd.dropna_title_abstract
       (Pd.fillna_journal "Unknown Journal" (Pd.dropna_title_abstract df)))
  = Pd.fillna_journal "Unknown Journal" (Pd.dropna_title_abstract df).
Proof. apply (clean_on_complete (clean df)), clean_complete. Qed.





(** ** Counts per year and per journal *)

Section SeriesFacts.

Context {K : Type}.
Variable eqb : K -> K -> bool.
Hypothesis eqb_eq : forall a b, eqb a b = true <-> a = b.

Lemma first_seen_In (k : K) (col : list (option K)) :
  first_seen eqb k col < length col <-> In (Some k) col.
Proof.
  induction col as [|c rest IH]; simpl; [split; [lia | tauto]|].
  destruct (holds eqb k c) eqn:E.
  - split; [|lia]. intros _. left.
    destruct c as [k'|]; simpl in E; [|discriminate].
    apply eqb_eq in E. subst. reflexivity.
  - rewrite <- Nat.succ_lt_mono, IH. split; [auto|].
    intros [Hc | Hin]; [|exact Hin].
    subst c. simpl in E. rewrite (proj2 (eqb_eq k k) eq_refl) in E.
    discriminate.
Qed.

Lemma bump_total (k : K) (acc : list (K * nat)) :
  total (Pd.bump eqb k acc) = S (total acc).
Proof.
  unfold total.
  induction acc as [|[k' n] rest IH]; simpl; [reflexivity|].
  destruct (eqb k k'); simpl; [reflexivity|]. rewrite IH. lia.
Qed.

Lemma count_keys_total (col : list (option K)) :
  total (Pd.count_keys eqb col) = length (filter notna col).
Proof.
  induction col as [|v col IH] using rev_ind; [reflexivity|].
  rewrite count_keys_snoc, filter_app, length_app.
  destruct v as [k|]; simpl.
  - rewrite bump_total, IH. lia.
  - rewrite IH. lia.
Qed.

Lemma total_perm (l l' : list (K * nat)) :
  Permutation l l' -> total l = total l'.
Proof.
  unfold total. induction 1; simpl; try lia.
Qed.

Variable argsort : list (K * nat) -> list (K * nat).
Hypothesis argsort_perm : forall l, Permutation (argsort l) l.

Lemma value_counts_perm (col : list (option K)) :
  Permutation (Pd.value_counts eqb argsort col) (Pd.count_keys eqb col).
Proof.
  unfold Pd.value_counts. apply sort_values_desc_perm. exact argsort_perm.
Qed.

Lemma value_counts_total (col : list (option K)) :
  total (Pd.value_counts eqb argsort col) = length (filter notna col).
Proof.
  rewrite (total_perm _ _ (value_counts_perm col)). apply count_keys_total.
Qed.

(** The keys of the series are the values of the column. *)
Lemma value_counts_keys (col : list (option K)) (k : K) :
  In k (map fst (Pd.value_counts eqb argsort col)) <-> In (Some k) col.
Proof.
  destruct (count_keys_counted eqb eqb_eq col) as [Hk _ _].
  rewrite <- first_seen_In, <- Hk. split; apply Permutation_in.
  - apply Permutation_map, value_counts_perm.
  - apply Permutation_map, Permutation_sym, value_counts_perm.
Qed.

End SeriesFacts.

Lemma insert_key_perm (x : Z * nat) (l : list (Z * nat)) :
  Permutation (Pd.insert_key x l) (x :: l).
Proof.
  induction l as [|y rest IH]; simpl; [reflexivity|].
  destruct (fst x <=? fst y)%Z; [reflexivity|].
  rewrite IH. apply perm_swap.
Qed.

Lemma sort_index_perm (l : list (Z * nat)) :
  Permutation (Pd.sort_index l) l.
Proof.
  induction l as [|x rest IH]; simpl; [reflexivity|].
  rewrite insert_key_perm, IH. reflexivity.
Qed.

Lemma insert_key_sorted (x : Z * nat) (l : list (Z * nat)) :
  StronglySorted (fun a b => (fst a <= fst b)%Z) l ->
  StronglySorted (fun a b => (fst a <= fst b)%Z) (Pd.insert_key x l).
Proof.
  induction 1 as [|y rest Hsorted IH Hy]; simpl.
  - constructor; constructor.
  - destruct (fst x <=? fst y)%Z eqn:E.
    + apply Z.leb_le in E.
      constructor; [constructor; assumption|].
      constructor; [exact E|].
      eapply Forall_impl; [|exact Hy]. simpl. intros z Hz. lia.
    + apply Z.leb_gt in E.
      constructor; [exact IH|].
      eapply Permutation_Forall; [symmetry; apply insert_key_perm|].
      constructor; [lia | assumption].
Qed.

Lemma sort_index_sorted (l : list (Z * nat)) :
  StronglySorted (fun a b => (fst a <= fst b)%Z) (Pd.sort_index l).
Proof.
  induction l as [|x rest IH]; simpl; [constructor|].
  apply insert_key_sorted. exact IH.
Qed.

Lemma sorted_distinct_strict (l : list (Z * nat)) :
  StronglySorted (fun a b => (fst a <= fst b)%Z) l ->
  NoDup (map fst l) ->
  StronglySorted (fun a b => (fst a < fst b)%Z) l.
Proof.
  induction 1 as [|x rest Hsorted IH Hx]; simpl; intros Hnd; constructor.
  - apply IH. inversion Hnd; assumption.
  - inversion Hnd as [|? ? Hnotin _]; subst.
    rewrite Forall_forall in *. intros y Hy.
    specialize (Hx y Hy).
    destruct (Z.eq_dec (fst x) (fst y)) as [Heq|Hne]; [|lia].
    exfalso. apply Hnotin. rewrite Heq. apply in_map. exact Hy.
Qed.

Lemma notna_years (df : frame) :
  length (filter notna (map publication_year df))
  = length (filter has_year df).
Proof.
  induction df as [|r rest IH]; simpl; [reflexivity|].
  unfold has_year at 1. destruct (notna (publication_year r)); simpl; lia.
Qed.

(** The yearly counts of a table, for any sorting routine meeting the
    contract. *)
Lemma papers_by_year_facts argsort (df : frame) :
  sorts_ascending argsort ->
  StronglySorted (fun a b => (fst a < fst b)%Z) (papers_by_year argsort df) /\
  Forall (fun e => snd e = occurrences Z.eqb (fst e) (map publication_year df)
                   /\ 0 < snd e)
         (papers_by_year argsort df) /\
  (forall y, In y (map fst (papers_by_year argsort df)) <->
             In (Some y) (map publication_year df)) /\
  total (papers_by_year argsort df) = length (filter has_year df).
Proof.
  intros Hsort. unfold papers_by_year.
  pose proof (fun l => proj1 (Hsort Z l)) as Hperm.
  destruct (value_counts_any Z.eqb Z.eqb_eq (argsort Z)
              (map publication_year df) Hperm
              (fun l => proj2 (Hsort Z l))) as (_ & Hnodup & Hcount).
  split; [|split; [|split]].
  - apply sorted_distinct_strict; [apply sort_index_sorted|].
    eapply Permutation_NoDup; [|exact Hnodup].
    apply Permutation_map, Permutation_sym, sort_index_perm.
  - eapply Permutation_Forall; [symmetry; apply sort_index_perm|].
    exact Hcount.
  - intros y.
    rewrite <- (value_counts_keys Z.eqb Z.eqb_eq (argsort Z) Hperm).
    split; apply Permutation_in, Permutation_map.
    + apply sort_index_perm.
    + apply Permutation_sym, sort_index_perm.
  - rewrite (total_perm _ _ (sort_index_perm _)).
    rewrite (value_counts_total Z.eqb (argsort Z) Hperm).
    apply notna_years.
Qed.

(** X5.  The yearly counts (lines 54 and 146), whatever routine sorts
    the counts: the years are listed in strictly ascending order, the
    listed years are exactly the years present in the table, each with
    the number of its rows, and the counts add up to the number of rows
    that have a year; rows without a year are counted nowhere. *)
Theorem papers_by_year_series argsort (df : frame) :
  sorts_ascending argsort ->
  StronglySorted (fun a b => (fst a < fst b)%Z) (papers_by_year argsort df) /\
  Forall (fun e => snd e = occurrences Z.eqb (fst e) (map publication_year df)
                   /\ 0 < snd e)
         (papers_by_year argsort df) /\
  (forall y, In y (map fst (papers_by_year argsort df)) <->
             In (Some y) (map publication_year df)) /\
  total (papers_by_year argsort df) = length (filter has_year df).
Proof. apply papers_by_year_facts. Qed.

Lemma papers_by_year_series_witness :
  sorts_ascending Pd.stable_argsort /\
  total (papers_by_year Pd.stable_argsort
           [ mk_row (Some "t1") (Some "a1") (Some "J1") None (Some 2021%Z) 1;
             mk_row (Some "t2") (Some "a2") (Some "J2") None None 1;
             mk_row (Some "t3") (Some "a3") (Some "J2") None (Some 2020%Z) 1;
             mk_row (Some "t4") (Some "a4") (Some "J3") None (Some 2021%Z) 1 ])
  = 3.
Proof.
  split; [exact stable_argsort_sorts|].
  exact (proj2 (proj2 (proj2
           (papers_by_year_series Pd.stable_argsort _ stable_argsort_sorts)))).
Defined.

Lemma filtered_all_dated (df : frame) (lo hi : Z) :
  filter has_year (filtered_df df (lo, hi)) = filtered_df df (lo, hi).
Proof.
  rewrite filtered_df_filter.
  induction df as [|r rest IH]; simpl; [reflexivity|].
  destruct (year_within lo hi r) eqn:E; [|exact IH].
  simpl. unfold has_year at 1.
  apply year_within_spec in E. destruct E as (y & Hy & _).
  rewrite Hy. simpl. rewrite IH. reflexivity.
Qed.

(** X6.  In the interactive script the line chart of a selection
    accounts for every row of the filtered view: its years lie within the
    selected interval and its counts add up to the number of rows of the
    view (lines 50-56). *)
Theorem line_chart_accounts_for_view argsort (df : frame) (lo hi : Z) :
  sorts_ascending argsort ->
  Forall (fun e => (lo <= fst e <= hi)%Z)
         (papers_by_year argsort (filtered_df df (lo, hi))) /\
  total (papers_by_year argsort (filtered_df df (lo, hi)))
  = length (filtered_df df (lo, hi)).
Proof.
  intros Hsort.
  destruct (papers_by_year_facts argsort (filtered_df df (lo, hi)) Hsort)
    as (_ & _ & Hkeys & Htotal).
  split.
  - apply Forall_forall. intros e He.
    assert (Hin : In (Some (fst e))
                     (map publication_year (filtered_df df (lo, hi))))
      by (apply Hkeys, in_map, He).
    apply in_map_iff in Hin. destruct Hin as (r & Hr & Hin).
    rewrite filtered_df_filter in Hin. apply filter_In in Hin.
    destruct Hin as [_ Hw]. apply year_within_spec in Hw.
    destruct Hw as (y & Hy & Hrange). congruence.
  - rewrite Htotal, filtered_all_dated. reflexivity.
Qed.

Lemma line_chart_accounts_for_view_witness :
  sorts_ascending Pd.stable_argsort /\
  total (papers_by_year Pd.stable_argsort
           (filtered_df
              [ mk_row (Some "t1") (Some "a1") (Some "J1") None
                       (Some 2021%Z) 1;
                mk_row (Some "t2") (Some "a2") (Some "J2") None None 1;
                mk_row (Some "t3") (Some "a3") (Some "J2") None
                       (Some 2019%Z) 1 ]
              (2020%Z, 2022%Z)))
  = 1.
Proof.
  split; [exact stable_argsort_sorts|].
  exact (proj2 (line_chart_accounts_for_view Pd.stable_argsort _
                  2020%Z 2022%Z stable_argsort_sorts)).
Defined.

Lemma StronglySorted_app_cross {A} (R : A -> A -> Prop) (l1 l2 : list A) :
  StronglySorted R (l1 ++ l2) ->
  forall a b, In a l1 -> In b l2 -> R a b.
Proof.
  induction l1 as [|x rest IH]; simpl; intros H a b Ha Hb; [tauto|].
  inversion H as [|? ? Hsorted Hx]; subst.
  destruct Ha as [<- | Ha].
  - rewrite Forall_forall in Hx. apply Hx. apply in_or_app. right. exact Hb.
  - apply IH; assumption.
Qed.

(** X7.  The top journals are the top ones: a journal of the table that
    is not among the entries returned has no more rows than any journal
    returned, and is left out only when 10 entries are returned (lines 68
    and 151). *)
Theorem top_journals_are_top argsort (df : frame) (j : string) :
  sorts_ascending argsort ->
  In (Some j) (map journal df) ->
  ~ In j (map fst (top_journals argsort df)) ->
  length (top_journals argsort df) = 10 /\
  Forall (fun e => occurrences String.eqb j (map journal df) <= snd e)
         (top_journals argsort df).
Proof.
  intros Hsort Hin Hout. unfold top_journals, Pd.head in *.
  pose proof (fun l => proj1 (Hsort string l)) as Hperm.
  destruct (value_counts_any String.eqb String.eqb_eq (argsort string)
              (map journal df) Hperm
              (fun l => proj2 (Hsort string l))) as (Hdesc & _ & Hcount).
  apply (value_counts_keys String.eqb String.eqb_eq (argsort string) Hperm)
    in Hin.
  set (full := Pd.value_counts String.eqb (argsort string) (map journal df))
    in *.
  rewrite <- (firstn_skipn 10 full), map_app, in_app_iff in Hin.
  destruct Hin as [Hin | Hin]; [contradiction|].
  apply in_map_iff in Hin. destruct Hin as ([j' c] & Hj & Hin).
  simpl in Hj. subst j'.
  split.
  - rewrite length_firstn. apply Nat.min_l.
    destruct (Nat.le_gt_cases 10 (length full)) as [|Hshort];
      [assumption|].
    rewrite skipn_all2 in Hin by lia. destruct Hin.
  - assert (Hc : c = occurrences String.eqb j (map journal df)).
    { rewrite Forall_forall in Hcount.
      apply (Hcount (j, c)).
      rewrite <- (firstn_skipn 10 full). apply in_or_app. right. exact Hin. }
    apply Forall_forall. intros e He. rewrite <- Hc.
    rewrite <- (firstn_skipn 10 full) in Hdesc.
    apply (StronglySorted_app_cross _ _ _ Hdesc e (j, c) He Hin).
Qed.

Lemma top_journals_are_top_witness :
  sorts_ascending Pd.stable_argsort /\
  length (top_journals Pd.stable_argsort
            (map (fun j => mk_row (Some "t") (Some "a") (Some j) None None 1)
                 ["J0"; "J1"; "J1"; "J2"; "J2"; "J3"; "J3"; "J4"; "J4";
                  "J5"; "J5"; "J6"; "J6"; "J7"; "J7"; "J8"; "J8"; "J9";
                  "J9"; "Ja"; "Ja"])) = 10.
Proof.
  split; [exact stable_argsort_sorts|].
  refine (proj1 (top_journals_are_top Pd.stable_argsort _ "J0"
                   stable_argsort_sorts _ _)).
  - simpl. left. reflexivity.
  - vm_compute. intros H.
    repeat (destruct H as [H | H]; [discriminate H|]). exact H.
Defined.

(** ** The slider *)

Lemma fold_min_from (col : list (option Z)) : forall a,
  exists m, fold_left Pd.opt_min col (Some a) = Some m /\
            (m <= a)%Z /\
            (forall y, In (Some y) col -> (m <= y)%Z) /\
            (m = a \/ In (Some m) col).
Proof.
  induction col as [|c rest IH]; intros a; simpl.
  - exists a. repeat split; [lia | tauto | auto].
  - destruct c as [b|]; simpl.
    + destruct (IH (Z.min a b)) as (m & Hm & Hle & Hall & Hin).
      exists m. split; [exact Hm|]. split; [lia|]. split.
      * intros y [Hy | Hy]; [injection Hy as <-; lia | auto].
      * destruct Hin as [-> | Hin]; [|auto].
        destruct (Z.min_spec a b) as [[_ ->] | [_ ->]]; auto.
    + destruct (IH a) as (m & Hm & Hle & Hall & Hin).
      exists m. split; [exact Hm|]. split; [exact Hle|]. split.
      * intros y [Hy | Hy]; [discriminate | auto].
      * destruct Hin; auto.
Qed.

Lemma fold_max_from (col : list (option Z)) : forall a,
  exists m, fold_left Pd.opt_max col (Some a) = Some m /\
            (a <= m)%Z /\
            (forall y, In (Some y) col -> (y <= m)%Z) /\
            (m = a \/ In (Some m) col).
Proof.
  induction col as [|c rest IH]; intros a; simpl.
  - exists a. repeat split; [lia | tauto | auto].
  - destruct c as [b|]; simpl.
    + destruct (IH (Z.max a b)) as (m & Hm & Hle & Hall & Hin).
      exists m. split; [exact Hm|]. split; [lia|]. split.
      * intros y [Hy | Hy]; [injection Hy as <-; lia | auto].
      * destruct Hin as [-> | Hin]; [|auto].
        destruct (Z.max_spec a b) as [[_ ->] | [_ ->]]; auto.
    + destruct (IH a) as (m & Hm & Hle & Hall & Hin).
      exists m. split; [exact Hm|]. split; [exact Hle|]. split.
      * intros y [Hy | Hy]; [discriminate | auto].
      * destruct Hin; auto.
Qed.

Lemma series_min_spec (col : list (option Z)) (y0 : Z) :
  In (Some y0) col ->
  exists m, Pd.series_min col = Some m /\ In (Some m) col /\
            forall y, In (Some y) col -> (m <= y)%Z.
Proof.
  unfold Pd.series_min.
  induction col as [|c rest IH]; simpl; [tauto|].
  intros Hin. destruct c as [a|]; simpl.
  - destruct (fold_min_from rest a) as (m & Hm & Hle & Hall & Hm_in).
    exists m. split; [exact Hm|]. split.
    + destruct Hm_in as [-> | H]; auto.
    + intros y [Hy | Hy]; [injection Hy as <-; exact Hle | auto].
  - destruct Hin as [Hin | Hin]; [discriminate|].
    destruct (IH Hin) as (m & Hm & Hm_in & Hall).
    exists m. split; [exact Hm|]. split; [auto|].
    intros y [Hy | Hy]; [discriminate | auto].
Qed.

Lemma series_max_spec (col : list (option Z)) (y0 : Z) :
  In (Some y0) col ->
  exists m, Pd.series_max col = Some m /\ In (Some m) col /\
            forall y, In (Some y) col -> (y <= m)%Z.
Proof.
  unfold Pd.series_max.
  induction col as [|c rest IH]; simpl; [tauto|].
  intros Hin. destruct c as [a|]; simpl.
  - destruct (fold_max_from rest a) as (m & Hm & Hle & Hall & Hm_in).
    exists m. split; [exact Hm|]. split.
    + destruct Hm_in as [-> | H]; auto.
    + intros y [Hy | Hy]; [injection Hy as <-; exact Hle | auto].
  - destruct Hin as [Hin | Hin]; [discriminate|].
    destruct (IH Hin) as (m & Hm & Hm_in & Hall).
    exists m. split; [exact Hm|]. split; [auto|].
    intros y [Hy | Hy]; [discriminate | auto].
Qed.

Lemma series_min_attained (col : list (option Z)) (m : Z) :
  Pd.series_min col = Some m -> In (Some m) col.
Proof.
  unfold Pd.series_min.
  induction col as [|c rest IH]; simpl; [discriminate|].
  destruct c as [a|]; simpl.
  - destruct (fold_min_from rest a) as (m' & Hm & _ & _ & Hin).
    rewrite Hm. intros H. injection H as <-.
    destruct Hin as [-> | Hin]; auto.
  - intros H. right. apply IH. exact H.
Qed.




(** X9.  With the slider left at its default, the filtered view (line
    50) is the table without the rows that have no year: every dated row
    is kept, in order, and nothing else. *)
Theorem default_range_keeps_dated_rows (df : frame) (lo hi : Z) :
  Pd.series_min (map publication_year df) = Some lo ->
  Pd.series_max (map publication_year df) = Some hi ->
  filtered_df df (lo, hi) = filter has_year df.
Proof.
  intros Hmin Hmax.
  pose proof (series_min_attained _ _ Hmin) as Hin.
  destruct (series_min_spec _ lo Hin) as (m & Hm & _ & Hlow).
  destruct (series_max_spec _ lo Hin) as (M & HM & _ & Hhigh).
  rewrite Hmin in Hm. injection Hm as <-.
  rewrite Hmax in HM. injection HM as <-.
  rewrite filtered_df_filter. apply filter_ext_in. intros r Hr.
  unfold year_within, has_year.
  destruct (publication_year r) as [y|] eqn:Hy; [|reflexivity].
  assert (Hy_in : In (Some y) (map publication_year df))
    by (rewrite <- Hy; apply in_map, Hr).
  simpl. apply andb_true_iff. rewrite !Z.leb_le. auto.
Qed.

Lemma default_range_keeps_dated_rows_witness :
  Pd.series_min
    (map publication_year
       [ mk_row (Some "t1") (Some "a1") (Some "J1") None (Some 2021%Z) 1;
         mk_row (Some "t2") (Some "a2") (Some "J2") None None 1;
         mk_row (Some "t3") (Some "a3") (Some "J2") None (Some 2019%Z) 1 ])
  = Some 2019%Z /\
  Pd.series_max
    (map publication_year
       [ mk_row (Some "t1") (Some "a1") (Some "J1") None (Some 2021%Z) 1;
         mk_row (Some "t2") (Some "a2") (Some "J2") None None 1;
         mk_row (Some "t3") (Some "a3") (Some "J2") None (Some 2019%Z) 1 ])
  = Some 2021%Z /\
  filtered_df
    [ mk_row (Some "t1") (Some "a1") (Some "J1") None (Some 2021%Z) 1;
      mk_row (Some "t2") (Some "a2") (Some "J2") None None 1;
      mk_row (Some "t3") (Some "a3") (Some "J2") None (Some 2019%Z) 1 ]
    (2019%Z, 2021%Z)
  = [ mk_row (Some "t1") (Some "a1") (Some "J1") None (Some 2021%Z) 1;
      mk_row (Some "t3") (Some "a3") (Some "J2") None (Some 2019%Z) 1 ].
Proof.
  split; [reflexivity|]. split; [reflexivity|].
  exact (default_range_keeps_dated_rows
           [ mk_row (Some "t1") (Some "a1") (Some "J1") None (Some 2021%Z) 1;
             mk_row (Some "t2") (Some "a2") (Some "J2") None None 1;
             mk_row (Some "t3") (Some "a3") (Some "J2") None (Some 2019%Z) 1 ]
           2019%Z 2021%Z eq_refl eq_refl).
Defined.

(** ** Runs of the interactive script *)

(** X10.  The interactive script needs a table of at least 10 rows: when
    [load_data] returns fewer, [df.sample(n=10)] at line 32 raises
    [ValueError]; the run has then shown the title, the description, the
    rule and the heading and text of the sample section, and nothing
    else (no table, no slider, no chart), whatever years the rows carry. *)
Theorem small_table_sample_raises
    parse_with random_sample word_frequencies argsort
    (df : frame) (sel : option (Z * Z)) (w w1 : world) :
  load_data parse_with w = (Return df, w1) ->
  length df < 10 ->
  streamlit_app parse_with random_sample word_frequencies argsort sel w =
  (Raise ValueError,
   mk_world (fs w1) (memo w1)
     (shown w1 ++
      [Title "CORD-19 Data Explorer 🔬";
       Write "A simple application to explore the CORD-19 research challenge metadata.";
       Markdown (nl ++ "---" ++ nl);
       Header "Raw Data Sample";
       Write "A small sample of the cleaned dataset:"])).
Proof.
  intros Hload Hshort.
  unfold streamlit_app. rewrite (bind_return _ _ _ _ _ Hload).
  unfold bind, emit, df_sample. cbn [fs memo shown].
  apply Nat.ltb_lt in Hshort. rewrite Hshort.
  unfold raise. rewrite <- !app_assoc. reflexivity.
Qed.

Lemma small_table_sample_raises_witness :
  load_data (fun _ => Iso8601.parse)
    (with_file (scenario "t1" "t2" "t3" "a1" "a2" "a3"))
  = (Return (prepare (fun _ => Iso8601.parse)
               (scenario "t1" "t2" "t3" "a1" "a2" "a3")),
     mk_world (fs (with_file (scenario "t1" "t2" "t3" "a1" "a2" "a3")))
       (Some (prepare (fun _ => Iso8601.parse)
                (scenario "t1" "t2" "t3" "a1" "a2" "a3")))
       []) /\
  length (prepare (fun _ => Iso8601.parse)
            (scenario "t1" "t2" "t3" "a1" "a2" "a3")) < 10 /\
  fst (streamlit_app (fun _ => Iso8601.parse) (fun n l => firstn n l)
         (fun _ => []) Pd.stable_argsort None
         (with_file (scenario "t1" "t2" "t3" "a1" "a2" "a3")))
  = Raise ValueError.
Proof.
  split; [reflexivity|]. split; [simpl; lia|].
  rewrite (small_table_sample_raises
             (fun _ => Iso8601.parse) (fun n l => firstn n l)
             (fun _ => []) Pd.stable_argsort
             (prepare (fun _ => Iso8601.parse)
                (scenario "t1" "t2" "t3" "a1" "a2" "a3"))
             None
             (with_file (scenario "t1" "t2" "t3" "a1" "a2" "a3"))
             _ eq_refl); [reflexivity | simpl; lia].
Defined.








(** ** Runs of the console script *)





(** ** The cache *)

Lemma load_data_return_cached parse_with (w w1 : world) (t : frame) :
  load_data parse_with w = (Return t, w1) ->
  memo w1 = Some t /\ fs w1 = fs w /\ shown w1 = shown w.
Proof.
  unfold load_data, cache_data. rewrite load_data_body_pure.
  destruct (memo w) as [v|] eqn:Hmemo.
  - intros H. injection H as <- <-. auto.
  - destruct (fs w "metadata.csv"); [|discriminate].
    intros H. injection H as <- <-. auto.
Qed.

(** X13.  Once [load_data] has returned a table, the cache answers: a
    later call returns that same table without reading the file, also
    after [metadata.csv] has been replaced by other content; nothing
    invalidates the entry. *)
Theorem cache_outlives_file parse_with (w w1 : world) (t : frame)
    (raw' : raw_frame) :
  load_data parse_with w = (Return t, w1) ->
  load_data parse_with (put_file raw' w1) = (Return t, put_file raw' w1).
Proof.
  intros Hload.
  destruct (load_data_return_cached parse_with w w1 t Hload) as (Hmemo & _).
  unfold load_data, cache_data. cbn [memo put_file].
  rewrite Hmemo. reflexivity.
Qed.

Lemma cache_outlives_file_witness :
  load_data (fun _ => Iso8601.parse)
    (with_file (scenario "t1" "t2" "t3" "a1" "a2" "a3"))
  = (Return (prepare (fun _ => Iso8601.parse)
               (scenario "t1" "t2" "t3" "a1" "a2" "a3")),
     mk_world (fs (with_file (scenario "t1" "t2" "t3" "a1" "a2" "a3")))
       (Some (prepare (fun _ => Iso8601.parse)
                (scenario "t1" "t2" "t3" "a1" "a2" "a3")))
       []) /\
  fst (load_data (fun _ => Iso8601.parse)
         (put_file []
            (mk_world (fs (with_file (scenario "t1" "t2" "t3" "a1" "a2" "a3")))
               (Some (prepare (fun _ => Iso8601.parse)
                        (scenario "t1" "t2" "t3" "a1" "a2" "a3")))
               [])))
  = Return (prepare (fun _ => Iso8601.parse)
              (scenario "t1" "t2" "t3" "a1" "a2" "a3")).
Proof.
  split; [reflexivity|].
  exact (f_equal fst
           (cache_outlives_file (fun _ => Iso8601.parse)
              (with_file (scenario "t1" "t2" "t3" "a1" "a2" "a3"))
              (mk_world
                 (fs (with_file (scenario "t1" "t2" "t3" "a1" "a2" "a3")))
                 (Some (prepare (fun _ => Iso8601.parse)
                          (scenario "t1" "t2" "t3" "a1" "a2" "a3")))
                 [])
              (prepare (fun _ => Iso8601.parse)
                 (scenario "t1" "t2" "t3" "a1" "a2" "a3"))
              [] eq_refl)).
Defined.


